(** * The request pipeline of [src/client/HttpClient.ts]

    A shallow embedding of the two classes of the file, [WebFetch] (the
    request executor) and [WebFetchHTTPClient] (the client facade), and the
    properties of the specification stated and settled on it.

    JavaScript effects are kept explicit: a computation is a function from
    the state of the running program to a completion (a value or a thrown
    exception) and the state it leaves behind.  A rejected promise of an
    [async] function is a [Throw]; a resolved one is a [Normal]. *)

From Stdlib Require Import ZArith Ascii String Floats.
From stdpp Require Import base strings list gmap pretty.

Local Open Scope Z_scope.
Local Open Scope string_scope.
Local Open Scope list_scope.

#[local] Set Warnings "-register-all".

(** ** JavaScript values *)

(** The values that JSON text parses to, with [undefined] added for a
    property that is not there.  Numbers are integers: the code only looks
    at the type tag of a number and passes it on. *)
Inductive value :=
| VUndefined
| VNull
| VBool (b : bool)
| VNum (n : Z)
| VStr (s : string)
| VArr (items : list value)
| VObj (props : list (string * value)).

(** The platform's error objects ([TypeError], [SyntaxError], the
    [DOMException] named [AbortError]): a name and a message. *)
Record Error := { error_name : string; error_message : string }.

Definition TypeError (msg : string) : Error :=
  {| error_name := "TypeError"; error_message := msg |}.

(** [typeof v === "number"]. *)
Definition typeof_number (v : value) : bool :=
  match v with VNum _ => true | _ => false end.

(** The own property [k] of an object, in the order the properties were
    created; [undefined] when there is none. *)
Fixpoint own_property (props : list (string * value)) (k : string) : value :=
  match props with
  | [] => VUndefined
  | (k', v) :: rest => if String.eqb k' k then v else own_property rest k
  end.

(** [v === null || v === undefined] *)
Definition nullish (v : value) : bool :=
  match v with VUndefined | VNull => true | _ => false end.

(** What [v.k] reads on a value that is neither [null] nor [undefined],
    for a property name [k] that no prototype defines (the code reads
    [ErrorCode] and [data]): the own property of an object; nothing on a
    boolean, a number, a string or an array. *)
Definition property (v : value) (k : string) : value :=
  match v with
  | VObj props => own_property props k
  | _ => VUndefined
  end.

(** [v.k]: reading a property of [null] or [undefined] throws a
    [TypeError]. *)
Definition get_property (v : value) (k : string) : Error + value :=
  match v with
  | VUndefined => inl (TypeError ("Cannot read properties of undefined (reading '" +:+ k +:+ "')"))
  | VNull => inl (TypeError ("Cannot read properties of null (reading '" +:+ k +:+ "')"))
  | _ => inr (property v k)
  end.

(** [String(v)], as the [URLSearchParams] constructor applies it to each
    name and value.  The decimal form of a number is the one JavaScript
    prints for integers below 10^21 in absolute value. *)
Fixpoint ToString (v : value) : string :=
  match v with
  | VUndefined => "undefined"
  | VNull => "null"
  | VBool true => "true"
  | VBool false => "false"
  | VNum n => pretty n
  | VStr s => s
  | VArr items =>
      String.concat ","
        (map (fun x => match x with
                       | VUndefined | VNull => ""
                       | _ => ToString x
                       end) items)
  | VObj _ => "[object Object]"
  end.

(** [Object.entries(o)] of a plain object that is given as the list of its
    own enumerable string-keyed properties, in the order in which
    [Object.entries] lists them. *)
Definition Object_entries (o : list (string * value)) : list (string * value) := o.

(** ** Headers *)

Definition lower_ascii (c : ascii) : ascii :=
  let n := nat_of_ascii c in
  if ((65 <=? n) && (n <=? 90))%nat then ascii_of_nat (n + 32) else c.

Fixpoint lower (s : string) : string :=
  match s with
  | EmptyString => EmptyString
  | String c rest => String (lower_ascii c) (lower rest)
  end.

(** Header names match without regard to case. *)
Definition same_name (a b : string) : bool := String.eqb (lower a) (lower b).

(** [list.append(name, value)] on a header list: the pair goes to the end
    of the list, under the spelling of the first header of that name when
    there is one.  Nothing is replaced and nothing is removed. *)
Definition header_list_append (l : list (string * string)) (name value : string)
  : list (string * string) :=
  let stored :=
    match List.find (fun nv => same_name (fst nv) name) l with
    | Some nv => fst nv
    | None => name
    end in
  l ++ [(stored, value)].

(** The guard of a [Headers] object: [none] on one built by
    [new Headers(...)], [request] and [response] on the headers of a
    [Request] and of a [Response] that a script built, [immutable] on the
    headers of a response that the network returned.  The guard of the
    headers of a request in no-cors mode is left out. *)
Inductive guard := GuardNone | GuardRequest | GuardResponse | GuardImmutable.

(** A [Headers] object: its guard and its header list, in insertion
    order. *)
Record Headers := {
  Headers_guard : guard;
  header_list : list (string * string)
}.

(** [new Headers(init)] for a sequence of valid pairs: each pair is
    appended in turn to an empty list, under the guard [none]. *)
Definition Headers_new (init : list (string * string)) : Headers :=
  {| Headers_guard := GuardNone;
     header_list := fold_left (fun l nv => header_list_append l (fst nv) (snd nv)) init [] |}.

Definition Headers_values (h : Headers) (name : string) : list string :=
  map snd (List.filter (fun nv => same_name (fst nv) name) (header_list h)).


(** [h.get(name)]: the values of every header of that name, joined with a
    comma and a space; [null] when there is none. *)
Definition Headers_get (h : Headers) (name : string) : option string :=
  match Headers_values h name with
  | [] => None
  | vs => Some (String.concat ", " vs)
  end.

(** The object after an append that went through. *)
Definition Headers_appended (h : Headers) (name value : string) : Headers :=
  {| Headers_guard := Headers_guard h;
     header_list := header_list_append (header_list h) name value |}.

(** [h.append(name, value)] for a valid name and value that the guards
    [request] and [response] let through, as they do [Content-Type] with
    [application/json]: an immutable object throws a [TypeError]; any other
    gets the pair appended to its list. *)
Definition Headers_append (h : Headers) (name value : string) : Error + Headers :=
  match Headers_guard h with
  | GuardImmutable => inl (TypeError "immutable")
  | _ => inr (Headers_appended h name value)
  end.

(** ** URLs *)

(** A [URLSearchParams] object keeps its pairs in an internal list that
    only its methods and its iterator reach. *)
Record URLSearchParams := { pairs : list (string * string) }.

Record URL := {
  origin : string;
  pathname : string;
  searchParams : URLSearchParams;
  hash : string
}.

(** [Object.entries(sp)] of a [URLSearchParams]: the object has no own
    enumerable string-keyed property, so there is nothing to list. *)
Definition Object_entries_URLSearchParams (sp : URLSearchParams) : list (string * value) := [].

(** [new URLSearchParams(seq)] for a sequence of pairs: each name and
    value is converted to a string, in order; no key is merged. *)
Definition URLSearchParams_new (seq : list (string * value)) : URLSearchParams :=
  {| pairs := map (fun kv => (fst kv, ToString (snd kv))) seq |}.

(** [new URL(`${o}${p}?${sp}`)] for the origin [o] and the path [p] of a
    parsed URL and a [URLSearchParams] [sp]: the text parses back to the
    same origin, path and pairs, with no fragment.  A URL of an opaque
    origin prints its origin as [null], and the text is then no URL. *)
Definition URL_of_parts (o p : string) (sp : URLSearchParams) : Error + URL :=
  if String.eqb o "null" then inl (TypeError "Invalid URL")
  else inr {| origin := o; pathname := p; searchParams := sp; hash := "" |}.

(** [WebFetch.addSearchParams] *)
Definition addSearchParams (url : URL) (params : list (string * value)) : Error + URL :=
  URL_of_parts (origin url) (pathname url)
    (URLSearchParams_new
       (Object_entries_URLSearchParams (searchParams url) ++ Object_entries params)).

(** ** Errors, results and options *)

(** Modelled from the spec: the class [PostmarkError] of [./errors] is not
    under src.  An error object holds what its constructor was given: the
    message, the error code (a number, [false], or [undefined] when the
    argument is left out) and the HTTP status ([None] when left out). *)
Record PostmarkError := {
  message : string;
  errorCode : value;
  httpStatus : option Z
}.

Definition PostmarkError_new (msg : string) (code : value) (statusCode : option Z) : PostmarkError :=
  {| message := msg; errorCode := code; httpStatus := statusCode |}.

(** [type Result<D, E> = { success: false, error: E } | { success: true, data: D }] *)
Inductive Result (D E : Type) :=
| Failure (error : E)
| Success (data : D).
Arguments Failure {D E} error.
Arguments Success {D E} data.

(** The [success] tag of a result. *)
Definition success {D E : Type} (r : Result D E) : bool :=
  match r with
  | Success _ => true
  | Failure _ => false
  end.

Module ClientOptions.

(** Modelled from the spec: the type [ClientOptions.HttpMethod] of
    [./models] is not under src; the spec closes the set at these five. *)
Inductive HttpMethod := GET | POST | PUT | PATCH | DELETE.

(** An optional property of an options object: absent, or present; a
    present property may hold [undefined]. *)
Inductive optional (A : Type) :=
| Absent
| Present (v : option A).
Arguments Absent {A}.
Arguments Present {A} v.

(** [o.k] for an optional property: [undefined] when the property is
    absent, and what it holds when it is present. *)
Definition read {A : Type} (p : optional A) : option A :=
  match p with
  | Absent => None
  | Present v => v
  end.

(** Modelled from the spec: the type [ClientOptions.Configuration] of
    [./models] is not under src.  The fields are the documented options,
    all optional; [timeout] is a number of seconds. *)
Record Configuration := {
  baseURL : optional string;
  timeout : optional float;
  validateStatus : optional (Z -> bool)
}.

(** One property of [{...a, ...b}]: the one of [b] when [b] has it, also
    when it holds [undefined] there; else the one of [a]. *)
Definition spread_property {A : Type} (a b : optional A) : optional A :=
  match b with
  | Absent => a
  | Present v => Present v
  end.

(** [{...a, ...b}]; spreading [undefined] adds nothing. *)
Definition spread (a : Configuration) (b : option Configuration) : Configuration :=
  match b with
  | None => a
  | Some b =>
      {| baseURL := spread_property (baseURL a) (baseURL b);
         timeout := spread_property (timeout a) (timeout b);
         validateStatus := spread_property (validateStatus a) (validateStatus b) |}
  end.

End ClientOptions.

(** The parts of the base class [HttpClient] of [./models] that the file
    uses and src does not hold: the static [DefaultOptions] and the method
    [getBaseHttpRequestURL], which reads the client's options. *)
Record HttpClient := {
  DefaultOptions : ClientOptions.Configuration;
  getBaseHttpRequestURL : ClientOptions.Configuration -> string
}.

(** ** The state of the program *)

(** The fields of a [WebFetch] object, all [private readonly]. *)
Record WebFetch := {
  baseURL : string;
  timeout : float;
  validateStatus : Z -> bool
}.

(** The fields of the [WebFetchHTTPClient] object; [client] is
    [undefined] until [initHttpClient] has run. *)
Record WebFetchHTTPClient := {
  clientOptions : ClientOptions.Configuration;
  client : option WebFetch
}.

(** The arguments of one [fetch] call: the address and the three members
    of the init object.  [fetch_signal] names the [AbortController] the
    signal belongs to. *)
Record fetch_request := {
  fetch_url : URL;
  fetch_method : ClientOptions.HttpMethod;
  fetch_headers : Headers;
  fetch_signal : nat
}.

(** [timers] holds the pending timers, each with its delay in milliseconds
    and the controller its callback aborts; [aborted] the controllers that
    were aborted; [sent] the network calls issued so far, oldest first. *)
Record world := {
  facade : WebFetchHTTPClient;
  next_id : nat;
  timers : gmap nat (float * nat);
  aborted : gset nat;
  sent : list fetch_request
}.

Definition set_facade (f : WebFetchHTTPClient -> WebFetchHTTPClient) (w : world) : world :=
  {| facade := f (facade w); next_id := next_id w; timers := timers w;
     aborted := aborted w; sent := sent w |}.

Definition set_timers (f : gmap nat (float * nat) -> gmap nat (float * nat)) (w : world)
  : world :=
  {| facade := facade w; next_id := next_id w; timers := f (timers w);
     aborted := aborted w; sent := sent w |}.

Definition set_aborted (f : gset nat -> gset nat) (w : world) : world :=
  {| facade := facade w; next_id := next_id w; timers := timers w;
     aborted := f (aborted w); sent := sent w |}.

Definition set_sent (f : list fetch_request -> list fetch_request) (w : world) : world :=
  {| facade := facade w; next_id := next_id w; timers := timers w;
     aborted := aborted w; sent := f (sent w) |}.

Definition bump_id (w : world) : world :=
  {| facade := facade w; next_id := S (next_id w); timers := timers w;
     aborted := aborted w; sent := sent w |}.

(** ** Computations *)

(** What can be thrown: a platform error, or the [PostmarkError] that
    [httpRequest] rethrows. *)
Inductive exn :=
| JsError (e : Error)
| ApiError (e : PostmarkError).

(** [(error as Error).message] *)
Definition exn_message (e : exn) : string :=
  match e with
  | JsError e => error_message e
  | ApiError e => message e
  end.

Inductive completion (A : Type) :=
| Normal (a : A)
| Throw (e : exn).
Arguments Normal {A} a.
Arguments Throw {A} e.

Definition M (A : Type) : Type := world -> completion A * world.

#[global] Instance M_ret : MRet M := fun A a w => (Normal a, w).

#[global] Instance M_bind : MBind M := fun A B f m w =>
  match m w with
  | (Normal a, w') => f a w'
  | (Throw e, w') => (Throw e, w')
  end.

Definition throw {A : Type} (e : exn) : M A := fun w => (Throw e, w).

(** [try { body } catch (error) { handler }]: the handler runs in the state
    the body left behind. *)
Definition try_catch {A : Type} (body : M A) (handler : exn -> M A) : M A := fun w =>
  match body w with
  | (Normal a, w') => (Normal a, w')
  | (Throw e, w') => handler e w'
  end.

(** A platform operation that returns or throws and touches no state. *)
Definition lift {A : Type} (r : Error + A) : M A :=
  match r with
  | inl e => throw (JsError e)
  | inr a => mret a
  end.

(** ** The platform *)

(** A received response: its status code and what [response.json()]
    settles to, the parsed body or the error of a body that is no JSON. *)
Record Response := {
  status : Z;
  json : Error + value
}.

(** How the race between a network call and the timers ends:
    the call fails before any timer fires; or a timer fires first, its
    callback aborts the controller of the call and the call rejects with
    the abort error; or a response arrives first. *)
Inductive fetch_outcome :=
| Rejected (e : Error)
| TimedOut (e : Error)
| Responded (r : Response).

(** What the file takes from its platform: the URL parser
    [new URL(path, base)], the network, and what other tasks do to the
    client object while a call is suspended at an [await]. *)
Record platform := {
  URL_new : string -> string -> Error + URL;
  fetch_settles : fetch_request -> fetch_outcome;
  meanwhile : WebFetchHTTPClient -> WebFetchHTTPClient
}.

(** The argument of [WebFetch.request]. *)
Record RequestConfig := {
  url : string;
  method : ClientOptions.HttpMethod;
  data : option value;
  headers : Headers;
  params : list (string * value)
}.

Section Client.

Context (env : platform) (models : HttpClient).

(** [new AbortController()] *)
Definition AbortController_new : M nat := fun w =>
  (Normal (next_id w), bump_id w).

(** [setTimeout(() => controller.abort(), delay)] *)
Definition setTimeout (controller : nat) (delay : float) : M nat := fun w =>
  (Normal (next_id w),
   bump_id (set_timers (fun t => <[next_id w := (delay, controller)]> t) w)).

(** [clearTimeout(id)] *)
Definition clearTimeout (id : nat) : M unit := fun w =>
  (Normal tt, set_timers (fun t => delete id t) w).

(** Other tasks run while the call is suspended. *)
Definition suspend : M unit := fun w =>
  (Normal tt, set_facade (meanwhile env) w).

(** [await fetch(url.href, { method, headers, signal })].  Of the timers
    only the one wired to the signal of the call is followed: it fires when
    the call times out.  Timers of other calls that fall due while this call
    is suspended are not followed. *)
Definition fetch (req : fetch_request) : M Response := fun w =>
  let w1 := set_facade (meanwhile env) (set_sent (fun l => l ++ [req]) w) in
  match fetch_settles env req with
  | Rejected e => (Throw (JsError e), w1)
  | TimedOut e =>
      (Throw (JsError e),
       set_aborted (fun a => {[fetch_signal req]} ∪ a)
         (set_timers (fun t => filter (fun kv => snd (snd kv) ≠ fetch_signal req) t) w1))
  | Responded r => (Normal r, w1)
  end.

(** [await response.json()] *)
Definition Response_json (r : Response) : M value :=
  suspend;; lift (json r).

(** [WebFetch.request].  The controller, the timer and the appended
    header come before the [try]: what the append throws is not caught.
    [append] changes the caller's object in place and the executor goes on
    with that same object, here the object with the lengthened list.  The
    [data] of the call is bound and never read. *)
Definition request (this : WebFetch) (config : RequestConfig)
  : M (Result value PostmarkError) :=
  controller ← AbortController_new;
  id ← setTimeout controller (timeout this);
  headers ← lift (Headers_append (headers config) "Content-Type" "application/json");
  try_catch
    (u ← lift (URL_new env (url config) (baseURL this));
     url ← lift (addSearchParams u (params config));
     response ← fetch {| fetch_url := url; fetch_method := method config;
                         fetch_headers := headers; fetch_signal := controller |};
     clearTimeout id;;
     data ← Response_json response;
     if negb (validateStatus this (status response)) then
       code ← lift (get_property data "ErrorCode");
       mret (Failure (PostmarkError_new "Request failed"
                        (if typeof_number code then code else VBool false)
                        (Some (status response))))
     else
       d ← lift (get_property data "data");
       mret (Success d))
    (fun error =>
       mret (Failure (PostmarkError_new (exn_message error) VUndefined None))).

(** Whether a number is truthy: every number is, but zero, minus zero and
    [NaN]. *)
Definition truthy (t : float) : bool :=
  negb (PrimFloat.is_nan t || PrimFloat.eqb t 0%float).

(** [WebFetchHTTPClient.getRequestTimeoutInMilliseconds]:
    [(this.clientOptions.timeout || 60) * 1000], on JavaScript numbers. *)
Definition getRequestTimeoutInMilliseconds (this : WebFetchHTTPClient) : float :=
  (match ClientOptions.read (ClientOptions.timeout (clientOptions this)) with
   | Some t => if truthy t then t else 60
   | None => 60
   end * 1000)%float.

(** [WebFetchHTTPClient.initHttpClient] *)
Definition initHttpClient (configOptions : option ClientOptions.Configuration) : M unit := fun w =>
  let this1 :=
    {| clientOptions := ClientOptions.spread (DefaultOptions models) configOptions;
       client := client (facade w) |} in
  let this2 :=
    {| clientOptions := clientOptions this1;
       client := Some {| baseURL := getBaseHttpRequestURL models (clientOptions this1);
                         timeout := getRequestTimeoutInMilliseconds this1;
                         validateStatus := fun status => ((200 <=? status) && (status <? 300))%Z |} |} in
  (Normal tt, set_facade (fun _ => this2) w).

(** [WebFetchHTTPClient.httpRequest] *)
Definition httpRequest (method : ClientOptions.HttpMethod) (path : string)
    (queryParameters : list (string * value)) (body : option value)
    (requestHeaders : Headers) : M value :=
  this_client ← (fun w =>
                   match client (facade w) with
                   | Some c => (Normal c, w)
                   | None => (Throw (JsError (TypeError
                       "Cannot read properties of undefined (reading 'request')")), w)
                   end);
  res ← request this_client
          {| method := method; url := path; data := body;
             headers := requestHeaders; params := queryParameters |};
  match res with
  | Success data => mret data
  | Failure error => throw (ApiError error)
  end.

End Client.

(** ** What a call sends *)

(** The address a call resolves its path to: [new URL(path, baseURL)],
    then [addSearchParams]. *)
Definition resolved_url (env : platform) (this : WebFetch) (config : RequestConfig)
  : Error + URL :=
  match URL_new env (url config) (baseURL this) with
  | inl e => inl e
  | inr u => addSearchParams u (params config)
  end.

(** The network call that [request] issues from the state [w], when the
    headers take the content type and the address resolves. *)
Definition issued_request (env : platform) (this : WebFetch) (config : RequestConfig)
    (w : world) : option fetch_request :=
  match Headers_append (headers config) "Content-Type" "application/json" with
  | inl _ => None
  | inr h =>
      match resolved_url env this config with
      | inl _ => None
      | inr u =>
          Some {| fetch_url := u; fetch_method := method config;
                  fetch_headers := h; fetch_signal := next_id w |}
      end
  end.

(** The same call with another body. *)
Definition with_data (config : RequestConfig) (body : option value) : RequestConfig :=
  {| url := url config; method := method config; data := body;
     headers := headers config; params := params config |}.


(** The client object after [initHttpClient(configOptions)]. *)
Definition reinitialised (models : HttpClient) (configOptions : option ClientOptions.Configuration)
    (this : WebFetchHTTPClient) : WebFetchHTTPClient :=
  {| clientOptions := ClientOptions.spread (DefaultOptions models) configOptions;
     client :=
       Some {| baseURL := getBaseHttpRequestURL models
                            (ClientOptions.spread (DefaultOptions models) configOptions);
               timeout := getRequestTimeoutInMilliseconds
                            {| clientOptions := ClientOptions.spread (DefaultOptions models) configOptions;
                               client := client this |};
               validateStatus := fun status => ((200 <=? status) && (status <? 300))%Z |} |}.

(** The predicate as the specification words it: the one the caller
    supplies among the construction options, and success on 200 to 299 when
    the caller supplies none. *)
Definition validateStatus_by_spec (configOptions : option ClientOptions.Configuration)
  : Z -> bool :=
  match configOptions with
  | Some {| ClientOptions.validateStatus := ClientOptions.Present (Some p) |} => p
  | _ => fun status => ((200 <=? status) && (status <? 300))%Z
  end.


(** ** A platform to run examples on *)

(** [s] cut at the first [c]: what comes before, and what comes after when
    [c] occurs. *)
Fixpoint cut (c : ascii) (s : string) : string * option string :=
  match s with
  | EmptyString => (EmptyString, None)
  | String a rest =>
      if Ascii.eqb a c then (EmptyString, Some rest)
      else let (before, after) := cut c rest in (String a before, after)
  end.

Fixpoint split (fuel : nat) (c : ascii) (s : string) : list string :=
  match fuel with
  | O => [s]
  | S fuel =>
      match cut c s with
      | (before, None) => [before]
      | (before, Some after) => before :: split fuel c after
      end
  end.

Definition parse_pair (s : string) : string * string :=
  match cut "=" s with
  | (k, Some v) => (k, v)
  | (k, None) => (k, EmptyString)
  end.

Definition parse_query (q : string) : list (string * string) :=
  map parse_pair
    (List.filter (fun s => negb (String.eqb s EmptyString)) (split (String.length q) "&" q)).

(** A URL parser for the examples: a path that starts with a slash,
    resolved against a base that is a bare origin.  On such input, free of
    escapes and dot segments, it gives what [new URL(path, base)] gives; it
    refuses everything else. *)
Definition example_URL_new (path base : string) : Error + URL :=
  match path with
  | String "/" _ =>
      let (before_hash, fragment) := cut "#" path in
      let (p, q) := cut "?" before_hash in
      inr {| origin := base; pathname := p;
             searchParams := {| pairs := match q with Some q => parse_query q | None => [] end |};
             hash := match fragment with Some f => String "#" f | None => EmptyString end |}
  | _ => inl (TypeError "Invalid URL")
  end.

(** A platform on which every network call ends the same way and no
    other task runs. *)
Definition example_platform (outcome : fetch_outcome) : platform :=
  {| URL_new := example_URL_new; fetch_settles := fun _ => outcome; meanwhile := fun f => f |}.

Definition example_models : HttpClient :=
  {| DefaultOptions :=
       {| ClientOptions.baseURL := ClientOptions.Present (Some "https://api.postmarkapp.com");
          ClientOptions.timeout := ClientOptions.Absent;
          ClientOptions.validateStatus := ClientOptions.Absent |};
     getBaseHttpRequestURL := fun options =>
       match ClientOptions.read (ClientOptions.baseURL options) with
       | Some b => b
       | None => EmptyString
       end |}.

Definition example_executor : WebFetch :=
  {| baseURL := "https://api.postmarkapp.com"; timeout := 60000%float;
     validateStatus := fun status => ((200 <=? status) && (status <? 300))%Z |}.

(** A program that has armed no timer and sent nothing, with a client
    that was not set up yet. *)
Definition example_world : world :=
  {| facade := {| clientOptions := DefaultOptions example_models; client := None |};
     next_id := 0; timers := ∅; aborted := ∅; sent := [] |}.

(** The same program after [initHttpClient()]. *)
Definition example_ready : world :=
  snd (initHttpClient example_models None example_world).

(** A [GET] of [path] with the query [query] and the headers
    [new Headers(h)]. *)
Definition example_config (path : string) (query : list (string * value))
    (h : list (string * string)) : RequestConfig :=
  {| url := path; method := ClientOptions.GET; data := None; headers := Headers_new h;
     params := query |}.

(** ** What a call settles to *)

(** The failure that the [catch] block builds from a caught error. *)
Definition failure_of (e : Error) : Result value PostmarkError :=
  Failure {| message := error_message e; errorCode := VUndefined; httpStatus := None |}.

(** The result of lines 43 to 55 on a received response. *)
Definition outcome_of_response (this : WebFetch) (r : Response) : Result value PostmarkError :=
  match json r with
  | inl e => failure_of e
  | inr parsed =>
      if validateStatus this (status r) then
        match get_property parsed "data" with
        | inl e => failure_of e
        | inr d => Success d
        end
      else
        match get_property parsed "ErrorCode" with
        | inl e => failure_of e
        | inr code =>
            Failure {| message := "Request failed";
                       errorCode := if typeof_number code then code else VBool false;
                       httpStatus := Some (status r) |}
        end
  end.

(** What a call settles to, read off the platform's answers: the error
    of the append when the headers refuse it, and a result otherwise. *)
Definition settles_to (env : platform) (this : WebFetch) (config : RequestConfig) (w : world)
  : completion (Result value PostmarkError) :=
  match Headers_append (headers config) "Content-Type" "application/json" with
  | inl e => Throw (JsError e)
  | inr h =>
      Normal
        match resolved_url env this config with
        | inl e => failure_of e
        | inr u =>
            match fetch_settles env
                    {| fetch_url := u; fetch_method := method config;
                       fetch_headers := h; fetch_signal := next_id w |} with
            | Rejected e => failure_of e
            | TimedOut e => failure_of e
            | Responded r => outcome_of_response this r
            end
        end
  end.

(** [Object.hasOwn(v, k)] on a parsed value. *)
Definition has_own (v : value) (k : string) : bool :=
  match v with
  | VObj props => existsb (fun kv => String.eqb (fst kv) k) props
  | _ => false
  end.






(** * Properties *)

(** Unfolds one run of [request] down to the platform's answers. *)
Ltac run :=
  unfold httpRequest, request, Response_json, suspend, fetch, clearTimeout, setTimeout,
    AbortController_new, try_catch, lift, throw, mbind, M_bind, mret, M_ret;
  cbn [fst snd].

(** ** Query parameters *)

Lemma addSearchParams_pairs (u : URL) (query : list (string * value)) :
  addSearchParams u query =
  URL_of_parts (origin u) (pathname u) (URLSearchParams_new query).
Proof. reflexivity. Qed.

(** The parameters that the parsed path carries never reach the address
    that is sent. *)
Lemma addSearchParams_forgets_embedded (u : URL) (query : list (string * value))
    (embedded : list (string * string)) :
  addSearchParams
    {| origin := origin u; pathname := pathname u;
       searchParams := {| pairs := embedded |}; hash := hash u |} query
  = addSearchParams u query.
Proof. reflexivity. Qed.

(** C1, evaluated on the code: for the path [/x?a=1] and the explicit query
    [{b: 2}] the path parses to a URL that carries [a=1], and the address
    the call is sent to carries [b=2] alone. *)
Theorem request_sends_explicit_query_only :
  let env := example_platform (Rejected (TypeError "fetch failed")) in
  let config := example_config "/x?a=1" [("b", VNum 2)] [] in
  URL_new env (url config) (baseURL example_executor)
    = inr {| origin := "https://api.postmarkapp.com"; pathname := "/x";
             searchParams := {| pairs := [("a", "1")] |}; hash := "" |}
  /\ (fun r => pairs (searchParams (fetch_url r)))
       <$> sent (snd (request env example_executor config example_world))
     = [[("b", "2")]].
Proof. split; reflexivity. Qed.

(** ** The body *)

(** C2: two calls that differ only in their body run alike: they settle
    alike and leave the same state behind, the network calls sent
    included.  This holds for [request], for [httpRequest], and for every
    method. *)
Theorem body_never_sent (env : platform) (this : WebFetch) (config : RequestConfig)
    (method : ClientOptions.HttpMethod) (path : string) (query : list (string * value))
    (requestHeaders : Headers) (body1 body2 : option value) (w : world) :
  request env this (with_data config body1) w = request env this (with_data config body2) w
  /\ httpRequest env method path query body1 requestHeaders w
     = httpRequest env method path query body2 requestHeaders w
  /\ sent (snd (httpRequest env method path query body1 requestHeaders w))
     = sent (snd (httpRequest env method path query body2 requestHeaders w)).
Proof.
  assert (H : httpRequest env method path query body1 requestHeaders w
              = httpRequest env method path query body2 requestHeaders w) by reflexivity.
  split; [reflexivity | split; [exact H | now rewrite H]].
Qed.

(** ** Exceptions *)

(** What a call settles to, in every case. *)
Lemma request_settles (env : platform) (this : WebFetch) (config : RequestConfig) (w : world) :
  fst (request env this config w) = settles_to env this config w.
Proof.
  unfold settles_to, outcome_of_response, failure_of, resolved_url. run.
  destruct (Headers_append (headers config) "Content-Type" "application/json")
    as [e | h]; cbn; [reflexivity |].
  destruct (URL_new env (url config) (baseURL this)) as [e | u]; cbn; [reflexivity |].
  destruct (addSearchParams u (params config)) as [e | u']; cbn; [reflexivity |].
  destruct (fetch_settles env _) as [e | e | r]; cbn; [reflexivity | reflexivity |].
  destruct (json r) as [e | parsed]; cbn; [reflexivity |].
  destruct (validateStatus this (status r)); cbn;
    destruct (get_property parsed _); reflexivity.
Qed.

Lemma Headers_append_accepted (h : Headers) (name value : string) :
  Headers_guard h <> GuardImmutable ->
  Headers_append h name value = inr (Headers_appended h name value).
Proof. unfold Headers_append. destruct (Headers_guard h); congruence. Qed.

Lemma Headers_append_refused (h : Headers) (name value : string) :
  Headers_guard h = GuardImmutable ->
  Headers_append h name value = inl (TypeError "immutable").
Proof. unfold Headers_append. now intros ->. Qed.

(** C3, evaluated on the code: on the headers of a response that the
    network returned, which are immutable, the append before the [try]
    throws; [request] rejects with that [TypeError] instead of settling with
    a result, nothing is sent, and the timer armed before the append stays
    pending. *)
Theorem request_throws_on_immutable_headers :
  let env := example_platform
               (Responded {| status := 200; json := inr (VObj [("data", VStr "sent")]) |}) in
  let received := {| Headers_guard := GuardImmutable;
                     header_list := [("content-type", "application/json")] |} in
  let config := {| url := "/email"; method := ClientOptions.GET; data := None;
                   headers := received; params := [] |} in
  let outcome := request env example_executor config example_world in
  fst outcome = Throw (JsError (TypeError "immutable"))
  /\ sent (snd outcome) = []
  /\ timers (snd outcome) !! 1%nat = Some (60000%float, 0%nat).
Proof. cbv zeta. split; [reflexivity | split; reflexivity]. Qed.

(** ** Received responses *)

Lemma get_property_defined (v : value) (k : string) :
  nullish v = false -> get_property v k = inr (property v k).
Proof. destruct v; cbn; congruence. Qed.

(** What a call whose request was issued settles to. *)
Lemma issued_request_settles (env : platform) (this : WebFetch) (config : RequestConfig)
    (w : world) (req : fetch_request) :
  issued_request env this config w = Some req ->
  fst (request env this config w) =
  Normal match fetch_settles env req with
         | Rejected e => failure_of e
         | TimedOut e => failure_of e
         | Responded r => outcome_of_response this r
         end.
Proof.
  rewrite request_settles. unfold issued_request, settles_to.
  destruct (Headers_append (headers config) "Content-Type" "application/json")
    as [e | h]; [discriminate |].
  destruct (resolved_url env this config) as [e | u]; [discriminate |].
  now intros [= <-].
Qed.

(** What [request] settles to once a response has arrived and its body has
    parsed to a value that is neither [null] nor [undefined]. *)
Lemma request_on_parsed_response (env : platform) (this : WebFetch) (config : RequestConfig)
    (w : world) (req : fetch_request) (r : Response) (parsed : value) :
  issued_request env this config w = Some req ->
  fetch_settles env req = Responded r ->
  json r = inr parsed ->
  nullish parsed = false ->
  fst (request env this config w) =
  Normal
    (if validateStatus this (status r) then Success (property parsed "data")
     else Failure
            {| message := "Request failed";
               errorCode := match property parsed "ErrorCode" with
                            | VNum n => VNum n
                            | _ => VBool false
                            end;
               httpStatus := Some (status r) |}).
Proof.
  intros Hreq Hr Hj Hn. rewrite (issued_request_settles _ _ _ _ _ Hreq), Hr.
  unfold outcome_of_response. rewrite Hj.
  destruct (validateStatus this (status r));
    rewrite (get_property_defined _ _ Hn); [reflexivity |].
  destruct (property parsed "ErrorCode"); reflexivity.
Qed.

(** What [request] settles to once a response has arrived whose body is
    no JSON: the failure carries the parser's message and no status. *)
Lemma request_on_unparsed_response (env : platform) (this : WebFetch) (config : RequestConfig)
    (w : world) (req : fetch_request) (r : Response) (e : Error) :
  issued_request env this config w = Some req ->
  fetch_settles env req = Responded r ->
  json r = inl e ->
  fst (request env this config w) =
  Normal (Failure {| message := error_message e; errorCode := VUndefined; httpStatus := None |}).
Proof.
  intros Hreq Hr Hj. rewrite (issued_request_settles _ _ _ _ _ Hreq), Hr.
  unfold outcome_of_response. now rewrite Hj.
Qed.

(** [httpRequest] runs [request] on the client's executor and unwraps. *)
Lemma httpRequest_unwraps (env : platform) (method : ClientOptions.HttpMethod) (path : string)
    (query : list (string * value)) (body : option value) (requestHeaders : Headers)
    (w : world) (this : WebFetch) :
  client (facade w) = Some this ->
  fst (httpRequest env method path query body requestHeaders w) =
  match fst (request env this
               {| url := path; method := method; data := body;
                  headers := requestHeaders; params := query |} w) with
  | Normal (Success d) => Normal d
  | Normal (Failure e) => Throw (ApiError e)
  | Throw e => Throw e
  end.
Proof.
  intros Hc. unfold httpRequest at 1. unfold mbind, M_bind. rewrite Hc.
  destruct (request env this _ w) as [[[e | d] | e] w']; reflexivity.
Qed.

(** C4, as amended: when a response arrives whose body parses to a JSON
    value other than [null], [httpRequest] resolves with the [data] field of
    the parsed body if the predicate accepts the status code, and throws a
    [PostmarkError] whose [httpStatus] is that status code if it does not. *)
Theorem httpRequest_on_parsed_response (env : platform) (method : ClientOptions.HttpMethod)
    (path : string) (query : list (string * value)) (body : option value)
    (requestHeaders : Headers) (w : world) (this : WebFetch) (req : fetch_request)
    (r : Response) (parsed : value) :
  client (facade w) = Some this ->
  issued_request env this
    {| url := path; method := method; data := body;
       headers := requestHeaders; params := query |} w = Some req ->
  fetch_settles env req = Responded r ->
  json r = inr parsed ->
  nullish parsed = false ->
  (validateStatus this (status r) = true ->
   fst (httpRequest env method path query body requestHeaders w)
   = Normal (property parsed "data"))
  /\ (validateStatus this (status r) = false ->
      exists e : PostmarkError,
        fst (httpRequest env method path query body requestHeaders w) = Throw (ApiError e)
        /\ httpStatus e = Some (status r)).
Proof.
  intros Hc Hreq Hr Hj Hn.
  rewrite (httpRequest_unwraps _ _ _ _ _ _ _ _ Hc).
  rewrite (request_on_parsed_response _ _ _ _ _ _ _ Hreq Hr Hj Hn).
  split; intros ->; [reflexivity | eauto].
Qed.

Lemma httpRequest_on_parsed_response_witness :
  let r := {| status := 200; json := inr (VObj [("data", VStr "sent")]) |} in
  let env := example_platform (Responded r) in
  let config := {| url := "/email"; method := ClientOptions.POST; data := None;
                   headers := Headers_new []; params := [] |} in
  exists req : fetch_request,
    client (facade example_ready) = Some example_executor
    /\ issued_request env example_executor config example_ready = Some req
    /\ fetch_settles env req = Responded r
    /\ json r = inr (VObj [("data", VStr "sent")])
    /\ nullish (VObj [("data", VStr "sent")]) = false
    /\ validateStatus example_executor (status r) = true
    /\ fst (httpRequest env ClientOptions.POST "/email" [] None (Headers_new [])
              example_ready)
       = Normal (VStr "sent").
Proof.
  cbv zeta. eexists.
  refine (conj eq_refl (conj eq_refl (conj eq_refl (conj eq_refl (conj eq_refl
            (conj eq_refl _)))))).
  exact (proj1 (httpRequest_on_parsed_response
                  (example_platform
                     (Responded {| status := 200; json := inr (VObj [("data", VStr "sent")]) |}))
                  ClientOptions.POST "/email" [] None (Headers_new []) example_ready
                  example_executor _ _ _
                  eq_refl eq_refl eq_refl eq_refl eq_refl) eq_refl).
Defined.

(** C4 fails as stated: a 502 whose body is no JSON makes [httpRequest]
    throw an error that carries no status, and a 200 whose body is the JSON
    [null] makes it throw instead of resolving. *)
Lemma httpRequest_status_counterexample :
  let html := {| error_name := "SyntaxError";
                 error_message := "Unexpected token < in JSON at position 0" |} in
  let bad_gateway := example_platform (Responded {| status := 502; json := inl html |}) in
  let null_body := example_platform (Responded {| status := 200; json := inr VNull |}) in
  (validateStatus example_executor 502 = false
   /\ ~ exists e : PostmarkError,
         fst (httpRequest bad_gateway ClientOptions.GET "/email" [] None (Headers_new [])
                example_ready)
         = Throw (ApiError e)
         /\ httpStatus e = Some 502)
  /\ (validateStatus example_executor 200 = true
      /\ ~ exists d : value,
            fst (httpRequest null_body ClientOptions.GET "/email" [] None (Headers_new [])
                   example_ready)
            = Normal d).
Proof.
  cbv zeta. split; (split; [reflexivity |]).
  - intros [e [H Hs]].
    vm_compute in H. injection H as <-. discriminate.
  - intros [d H].
    vm_compute in H. discriminate.
Qed.

(** ** The error of a rejected response *)

(** C6, as amended: when a response arrives that the predicate rejects and
    whose body parses to a JSON value other than [null], the failure carries
    the message [Request failed], the status code of the response, and as
    error code the [ErrorCode] field of the body when that field is a number
    and [false] when it is anything else or missing. *)
Theorem rejected_response_error (env : platform) (this : WebFetch) (config : RequestConfig)
    (w : world) (req : fetch_request) (r : Response) (parsed : value) :
  issued_request env this config w = Some req ->
  fetch_settles env req = Responded r ->
  json r = inr parsed ->
  nullish parsed = false ->
  validateStatus this (status r) = false ->
  fst (request env this config w) =
  Normal (Failure
            {| message := "Request failed";
               errorCode := match property parsed "ErrorCode" with
                            | VNum n => VNum n
                            | _ => VBool false
                            end;
               httpStatus := Some (status r) |}).
Proof.
  intros Hreq Hr Hj Hn Hv.
  rewrite (request_on_parsed_response _ _ _ _ _ _ _ Hreq Hr Hj Hn), Hv. reflexivity.
Qed.

Lemma rejected_response_error_witness :
  let r := {| status := 422; json := inr (VObj [("ErrorCode", VNum 300)]) |} in
  let env := example_platform (Responded r) in
  let config := example_config "/email" [] [] in
  exists req : fetch_request,
    issued_request env example_executor config example_world = Some req
    /\ fetch_settles env req = Responded r
    /\ json r = inr (VObj [("ErrorCode", VNum 300)])
    /\ nullish (VObj [("ErrorCode", VNum 300)]) = false
    /\ validateStatus example_executor (status r) = false
    /\ fst (request env example_executor config example_world)
       = Normal (Failure {| message := "Request failed"; errorCode := VNum 300;
                            httpStatus := Some 422 |}).
Proof.
  cbv zeta. eexists.
  refine (conj eq_refl (conj eq_refl (conj eq_refl (conj eq_refl (conj eq_refl _))))).
  exact (rejected_response_error
           (example_platform
              (Responded {| status := 422; json := inr (VObj [("ErrorCode", VNum 300)]) |}))
           example_executor (example_config "/email" [] []) example_world _ _ _
           eq_refl eq_refl eq_refl eq_refl eq_refl).
Defined.

(** The error code is [false] for an [ErrorCode] that is a string and for
    a body without the field. *)
Example error_code_of_string_or_missing :
  let run body :=
    fst (request (example_platform (Responded {| status := 422; json := inr body |}))
           example_executor (example_config "/email" [] []) example_world) in
  run (VObj [("ErrorCode", VStr "300")])
    = Normal (Failure {| message := "Request failed"; errorCode := VBool false;
                         httpStatus := Some 422 |})
  /\ run (VObj [("Message", VStr "no")])
    = Normal (Failure {| message := "Request failed"; errorCode := VBool false;
                         httpStatus := Some 422 |}).
Proof. split; reflexivity. Qed.

(** C6 fails as stated: a response that the predicate rejects and whose
    body is no JSON, or is the JSON [null], gives a failure with another
    message and no status. *)
Lemma rejected_response_error_counterexample :
  let html := {| error_name := "SyntaxError";
                 error_message := "Unexpected token < in JSON at position 0" |} in
  let unavailable := example_platform (Responded {| status := 503; json := inl html |}) in
  let null_body := example_platform (Responded {| status := 500; json := inr VNull |}) in
  let fixed (status : Z) (res : completion (Result value PostmarkError)) :=
    exists e : PostmarkError,
      res = Normal (Failure e) /\ message e = "Request failed" /\ httpStatus e = Some status in
  validateStatus example_executor 503 = false
  /\ ~ fixed 503 (fst (request unavailable example_executor
                         (example_config "/email" [] []) example_world))
  /\ validateStatus example_executor 500 = false
  /\ ~ fixed 500 (fst (request null_body example_executor
                         (example_config "/email" [] []) example_world)).
Proof.
  cbv zeta. repeat split.
  - intros [e [H [_ Hs]]].
    vm_compute in H. injection H as <-. discriminate.
  - intros [e [H [_ Hs]]].
    vm_compute in H. injection H as <-. discriminate.
Qed.

(** ** The cancellation timer *)

(** The state a call leaves behind when its request was issued. *)
Lemma issued_request_leaves (env : platform) (this : WebFetch) (config : RequestConfig)
    (w : world) (req : fetch_request) :
  issued_request env this config w = Some req ->
  timers (snd (request env this config w)) =
  match fetch_settles env req with
  | Rejected _ => <[S (next_id w) := (timeout this, next_id w)]> (timers w)
  | TimedOut _ =>
      filter (fun kv => snd (snd kv) ≠ next_id w)
        (<[S (next_id w) := (timeout this, next_id w)]> (timers w))
  | Responded _ =>
      delete (S (next_id w)) (<[S (next_id w) := (timeout this, next_id w)]> (timers w))
  end.
Proof.
  unfold issued_request, resolved_url. intros Hreq. run.
  destruct (Headers_append (headers config) "Content-Type" "application/json")
    as [e | h]; [discriminate |]. cbn.
  destruct (URL_new env (url config) (baseURL this)) as [e | u]; [discriminate |].
  destruct (addSearchParams u (params config)) as [e | u']; [discriminate |].
  injection Hreq as <-. cbn.
  destruct (fetch_settles env _) as [e | e | r]; cbn; [reflexivity | reflexivity |].
  destruct (json r) as [e | parsed]; cbn; [reflexivity |].
  destruct (validateStatus this (status r)); cbn;
    destruct (get_property parsed _); reflexivity.
Qed.

(** The state a call leaves behind when no request was issued: the timer
    that was armed first is pending. *)
Lemma unissued_request_leaves (env : platform) (this : WebFetch) (config : RequestConfig)
    (w : world) :
  issued_request env this config w = None ->
  timers (snd (request env this config w))
  = <[S (next_id w) := (timeout this, next_id w)]> (timers w)
  /\ sent (snd (request env this config w)) = sent w
  /\ facade (snd (request env this config w)) = facade w.
Proof.
  unfold issued_request, resolved_url. intros Hreq. run.
  destruct (Headers_append (headers config) "Content-Type" "application/json")
    as [e | h]; cbn; [repeat split |].
  destruct (URL_new env (url config) (baseURL this)) as [e | u]; cbn; [repeat split |].
  destruct (addSearchParams u (params config)) as [e | u']; cbn;
    [repeat split | discriminate].
Qed.

(** Once a response has arrived the timer of the call is no longer
    pending, whatever becomes of the body and of the status check. *)
Lemma timer_cleared_on_response (env : platform) (this : WebFetch) (config : RequestConfig)
    (w : world) (req : fetch_request) (r : Response) :
  issued_request env this config w = Some req ->
  fetch_settles env req = Responded r ->
  timers (snd (request env this config w)) !! S (next_id w) = None.
Proof.
  intros Hreq Hr. rewrite (issued_request_leaves _ _ _ _ _ Hreq), Hr.
  apply lookup_delete_eq.
Qed.

(** When the network call fails before the timer fires, the call settles
    with a failure and its timer stays pending. *)
Lemma timer_pending_on_rejection (env : platform) (this : WebFetch) (config : RequestConfig)
    (w : world) (req : fetch_request) (e : Error) :
  issued_request env this config w = Some req ->
  fetch_settles env req = Rejected e ->
  fst (request env this config w)
  = Normal (Failure {| message := error_message e; errorCode := VUndefined;
                       httpStatus := None |})
  /\ timers (snd (request env this config w)) !! S (next_id w)
     = Some (timeout this, next_id w).
Proof.
  intros Hreq Hr.
  rewrite (issued_request_settles _ _ _ _ _ Hreq), (issued_request_leaves _ _ _ _ _ Hreq), Hr.
  split; [reflexivity | apply lookup_insert_eq].
Qed.

(** The same when the path resolves to no address and nothing is sent. *)
Lemma timer_pending_on_bad_address (env : platform) (this : WebFetch) (config : RequestConfig)
    (w : world) (e : Error) :
  Headers_guard (headers config) <> GuardImmutable ->
  resolved_url env this config = inl e ->
  fst (request env this config w)
  = Normal (Failure {| message := error_message e; errorCode := VUndefined;
                       httpStatus := None |})
  /\ timers (snd (request env this config w)) !! S (next_id w)
     = Some (timeout this, next_id w).
Proof.
  intros Hg Hu. split.
  - rewrite request_settles. unfold settles_to.
    now rewrite (Headers_append_accepted _ _ _ Hg), Hu.
  - assert (Hnone : issued_request env this config w = None).
    { unfold issued_request. rewrite (Headers_append_accepted _ _ _ Hg), Hu. reflexivity. }
    rewrite (proj1 (unissued_request_leaves _ _ _ _ Hnone)). apply lookup_insert_eq.
Qed.


(** C7, evaluated on the code: a network call that fails before the timer
    fires is caught and becomes a failure, and the timer that the call armed
    is still pending, its controller not aborted, when the call has
    settled. *)
Theorem timer_pending_after_transport_failure :
  let env := example_platform (Rejected (TypeError "fetch failed")) in
  let outcome := request env example_executor (example_config "/email" [] []) example_world in
  fst outcome
  = Normal (Failure {| message := "fetch failed"; errorCode := VUndefined;
                       httpStatus := None |})
  /\ timers (snd outcome) !! 1%nat = Some (60000%float, 0%nat)
  /\ aborted (snd outcome) = ∅.
Proof. cbv zeta. split; [reflexivity | split; reflexivity]. Qed.


(** ** Headers *)



Lemma same_name_refl (name : string) : same_name name name = true.
Proof. apply String.eqb_refl. Qed.

(** [append] keeps the header list and adds one pair at its end, under a
    name that matches the one given. *)
Lemma Headers_append_snoc (h : Headers) (name value : string) :
  exists stored : string,
    same_name stored name = true
    /\ header_list (Headers_appended h name value) = header_list h ++ [(stored, value)].
Proof.
  unfold Headers_appended, header_list_append. cbn.
  destruct (find (fun nv => same_name (fst nv) name) (header_list h)) as [nv |] eqn:Hf.
  - exists (fst nv). split; [exact (proj2 (find_some _ _ Hf)) | reflexivity].
  - exists name. split; [apply same_name_refl | reflexivity].
Qed.



(** What one call adds to the network calls sent: the call it issues, when
    it issues one. *)
Lemma request_sends (env : platform) (this : WebFetch) (config : RequestConfig) (w : world) :
  sent (snd (request env this config w))
  = sent w ++ option_list (issued_request env this config w).
Proof.
  unfold issued_request, resolved_url. run.
  destruct (Headers_append (headers config) "Content-Type" "application/json")
    as [e | h]; cbn; [now rewrite app_nil_r |].
  destruct (URL_new env (url config) (baseURL this)) as [e | u]; cbn;
    [now rewrite app_nil_r |].
  destruct (addSearchParams u (params config)) as [e | u']; cbn;
    [now rewrite app_nil_r |].
  destruct (fetch_settles env _) as [e | e | r]; cbn; [reflexivity | reflexivity |].
  destruct (json r) as [e | body]; cbn; [reflexivity |].
  destruct (validateStatus this (status r)); cbn;
    destruct (get_property body _); reflexivity.
Qed.



(** ** The status predicate *)

Lemma initHttpClient_installs (models : HttpClient)
    (configOptions : option ClientOptions.Configuration) (w : world) :
  initHttpClient models configOptions w
  = (Normal tt, set_facade (fun _ => reinitialised models configOptions (facade w)) w).
Proof. reflexivity. Qed.

(** C5, as amended: the predicate is an argument of the executor's
    constructor.  The executor judges by the predicate it was built with
    every response whose body parses to a JSON value other than [null]: such
    a response is a success exactly when the predicate accepts its status
    code.  No response is a success unless the predicate accepts its status
    code, and a response whose body is no JSON or is [null] is a failure
    whatever the predicate says.  [initHttpClient] always builds the
    executor with the predicate that accepts the codes from 200 to 299,
    whatever the caller's options hold. *)
Theorem validateStatus_of_client :
  (forall (models : HttpClient) (configOptions : option ClientOptions.Configuration)
          (w : world),
      exists this : WebFetch,
        client (facade (snd (initHttpClient models configOptions w))) = Some this
        /\ forall status : Z, validateStatus this status = true <-> 200 <= status < 300)
  /\ (forall (env : platform) (this : WebFetch) (config : RequestConfig) (w : world)
             (req : fetch_request) (r : Response) (parsed : value),
         issued_request env this config w = Some req ->
         fetch_settles env req = Responded r ->
         json r = inr parsed ->
         nullish parsed = false ->
         exists res : Result value PostmarkError,
           fst (request env this config w) = Normal res
           /\ success res = validateStatus this (status r))
  /\ (forall (env : platform) (this : WebFetch) (config : RequestConfig) (w : world)
             (req : fetch_request) (r : Response),
         issued_request env this config w = Some req ->
         fetch_settles env req = Responded r ->
         exists res : Result value PostmarkError,
           fst (request env this config w) = Normal res
           /\ (success res = true -> validateStatus this (status r) = true)
           /\ ((forall parsed : value, json r = inr parsed -> nullish parsed = true) ->
               success res = false)).
Proof.
  split; [| split].
  - intros models configOptions w. eexists. split; [reflexivity |].
    intros status. cbn. rewrite andb_true_iff, Z.leb_le, Z.ltb_lt. reflexivity.
  - intros env this config w req r parsed Hreq Hr Hj Hn.
    rewrite (request_on_parsed_response _ _ _ _ _ _ _ Hreq Hr Hj Hn).
    eexists. split; [reflexivity |].
    destruct (validateStatus this (status r)); reflexivity.
  - intros env this config w req r Hreq Hr.
    rewrite (issued_request_settles _ _ _ _ _ Hreq), Hr.
    eexists. split; [reflexivity |]. unfold outcome_of_response, failure_of.
    destruct (json r) as [e | parsed]; [split; [discriminate | reflexivity] |].
    destruct (validateStatus this (status r)).
    + split; [reflexivity |]. intros Hnull. specialize (Hnull parsed eq_refl).
      destruct parsed; cbn in Hnull |- *; try discriminate; reflexivity.
    + destruct (get_property parsed "ErrorCode"); split; try discriminate; reflexivity.
Qed.

Lemma validateStatus_of_client_witness :
  let r := {| status := 404; json := inr (VObj [("data", VStr "none")]) |} in
  let env := example_platform (Responded r) in
  let lenient := {| baseURL := "https://api.postmarkapp.com"; timeout := 60000%float;
                    validateStatus := fun _ => true |} in
  let config := example_config "/email" [] [] in
  exists req : fetch_request,
    issued_request env lenient config example_world = Some req
    /\ fetch_settles env req = Responded r
    /\ json r = inr (VObj [("data", VStr "none")])
    /\ nullish (VObj [("data", VStr "none")]) = false
    /\ exists res : Result value PostmarkError,
         fst (request env lenient config example_world) = Normal res
         /\ success res = true.
Proof.
  cbv zeta. eexists.
  refine (conj eq_refl (conj eq_refl (conj eq_refl (conj eq_refl _)))).
  exact (proj1 (proj2 validateStatus_of_client)
           (example_platform
              (Responded {| status := 404; json := inr (VObj [("data", VStr "none")]) |}))
           {| baseURL := "https://api.postmarkapp.com"; timeout := 60000%float;
              validateStatus := fun _ => true |}
           (example_config "/email" [] []) example_world _ _ _
           eq_refl eq_refl eq_refl eq_refl).
Defined.

(** C5 fails as stated: options that carry a predicate accepting every
    code leave the client with the predicate that rejects 404. *)
Lemma validateStatus_counterexample :
  let supplied := {| ClientOptions.baseURL := ClientOptions.Absent;
                     ClientOptions.timeout := ClientOptions.Absent;
                     ClientOptions.validateStatus :=
                       ClientOptions.Present (Some (fun _ => true)) |} in
  exists this : WebFetch,
    client (facade (snd (initHttpClient example_models (Some supplied) example_world)))
    = Some this
    /\ validateStatus this 404 = false
    /\ validateStatus_by_spec (Some supplied) 404 = true.
Proof. cbv zeta. eexists. split; [reflexivity | split; reflexivity]. Qed.

(** ** The timeout *)



(** ** Reinitialisation *)






(** * Further properties of the code *)

(** ** The outcome of a call *)

(** On headers that are not immutable no exception escapes [request]: it
    settles with a result, however the network call ends. *)
Theorem request_never_throws_on_mutable_headers (env : platform) (this : WebFetch)
    (config : RequestConfig) (w : world) :
  Headers_guard (headers config) <> GuardImmutable ->
  exists res : Result value PostmarkError, fst (request env this config w) = Normal res.
Proof.
  intros Hg. rewrite request_settles. unfold settles_to.
  rewrite (Headers_append_accepted _ _ _ Hg). eauto.
Qed.

Lemma request_never_throws_on_mutable_headers_witness :
  let env := example_platform (Responded {| status := 200; json := inr VNull |}) in
  let config := example_config "/email" [] [("Accept", "application/json")] in
  Headers_guard (headers config) <> GuardImmutable
  /\ exists res : Result value PostmarkError,
       fst (request env example_executor config example_world) = Normal res.
Proof.
  cbv zeta.
  assert (Hg : GuardNone <> GuardImmutable) by discriminate.
  refine (conj Hg _).
  exact (request_never_throws_on_mutable_headers
           (example_platform (Responded {| status := 200; json := inr VNull |}))
           example_executor (example_config "/email" [] [("Accept", "application/json")])
           example_world Hg).
Defined.

(** A success comes only from a response that arrived, that the predicate
    accepted and whose body parsed to a value other than [null]; it carries
    the [data] property of that body. *)
Theorem success_only_from_accepted_response (env : platform) (this : WebFetch)
    (config : RequestConfig) (w : world) (d : value) :
  fst (request env this config w) = Normal (Success d) ->
  exists (req : fetch_request) (r : Response) (parsed : value),
    issued_request env this config w = Some req
    /\ fetch_settles env req = Responded r
    /\ validateStatus this (status r) = true
    /\ json r = inr parsed
    /\ nullish parsed = false
    /\ d = property parsed "data".
Proof.
  rewrite request_settles. unfold settles_to, issued_request.
  destruct (Headers_append (headers config) "Content-Type" "application/json")
    as [e | h]; [discriminate |].
  intros [= H]. revert H.
  destruct (resolved_url env this config) as [e | u]; [discriminate |].
  destruct (fetch_settles env _) as [e | e | r] eqn:Hr; [discriminate | discriminate |].
  unfold outcome_of_response.
  destruct (json r) as [e | parsed] eqn:Hj; [discriminate |].
  destruct (validateStatus this (status r)) eqn:Hv.
  - destruct parsed; cbn; try discriminate; intros [= <-];
      eexists _, r, _; repeat split; eauto.
  - destruct (get_property parsed "ErrorCode"); discriminate.
Qed.

Lemma success_only_from_accepted_response_witness :
  let r := {| status := 200; json := inr (VObj [("data", VStr "sent")]) |} in
  let env := example_platform (Responded r) in
  let config := example_config "/email" [] [] in
  fst (request env example_executor config example_world) = Normal (Success (VStr "sent"))
  /\ exists (req : fetch_request) (r' : Response) (parsed : value),
       issued_request env example_executor config example_world = Some req
       /\ fetch_settles env req = Responded r'
       /\ validateStatus example_executor (status r') = true
       /\ json r' = inr parsed
       /\ nullish parsed = false
       /\ VStr "sent" = property parsed "data".
Proof.
  cbv zeta. refine (conj eq_refl _).
  exact (success_only_from_accepted_response
           (example_platform
              (Responded {| status := 200; json := inr (VObj [("data", VStr "sent")]) |}))
           example_executor (example_config "/email" [] []) example_world (VStr "sent")
           eq_refl).
Defined.

(** A failure carries a status only when a response arrived with that
    status and the predicate rejected it; its message is then the fixed one
    and its error code is a number or [false]. *)
Theorem status_only_from_rejected_response (env : platform) (this : WebFetch)
    (config : RequestConfig) (w : world) (e : PostmarkError) (s : Z) :
  fst (request env this config w) = Normal (Failure e) ->
  httpStatus e = Some s ->
  exists (req : fetch_request) (r : Response) (parsed : value),
    issued_request env this config w = Some req
    /\ fetch_settles env req = Responded r
    /\ status r = s
    /\ validateStatus this s = false
    /\ json r = inr parsed
    /\ message e = "Request failed"
    /\ (errorCode e = VBool false \/ exists n : Z, errorCode e = VNum n).
Proof.
  rewrite request_settles. unfold settles_to, issued_request, failure_of.
  destruct (Headers_append (headers config) "Content-Type" "application/json")
    as [e0 | h]; [discriminate |].
  intros [= H]. revert H.
  destruct (resolved_url env this config) as [e0 | u]; [intros [= <-]; discriminate |].
  destruct (fetch_settles env _) as [e0 | e0 | r] eqn:Hr;
    [intros [= <-]; discriminate | intros [= <-]; discriminate |].
  unfold outcome_of_response, failure_of.
  destruct (json r) as [e0 | parsed] eqn:Hj; [intros [= <-]; discriminate |].
  destruct (validateStatus this (status r)) eqn:Hv.
  - destruct (get_property parsed "data"); [intros [= <-]; discriminate | discriminate].
  - destruct (get_property parsed "ErrorCode") as [e0 | code];
      [intros [= <-]; discriminate |].
    intros [= <-]. cbn. intros [= <-].
    eexists _, r, parsed. repeat split; eauto.
    destruct code; cbn; eauto.
Qed.

Lemma status_only_from_rejected_response_witness :
  let r := {| status := 422; json := inr (VObj [("ErrorCode", VNum 300)]) |} in
  let env := example_platform (Responded r) in
  let config := example_config "/email" [] [] in
  let e := {| message := "Request failed"; errorCode := VNum 300; httpStatus := Some 422 |} in
  fst (request env example_executor config example_world) = Normal (Failure e)
  /\ httpStatus e = Some 422
  /\ exists (req : fetch_request) (r' : Response) (parsed : value),
       issued_request env example_executor config example_world = Some req
       /\ fetch_settles env req = Responded r'
       /\ status r' = 422
       /\ validateStatus example_executor 422 = false
       /\ json r' = inr parsed
       /\ message e = "Request failed"
       /\ (errorCode e = VBool false \/ exists n : Z, errorCode e = VNum n).
Proof.
  cbv zeta. refine (conj eq_refl (conj eq_refl _)).
  exact (status_only_from_rejected_response
           (example_platform
              (Responded {| status := 422; json := inr (VObj [("ErrorCode", VNum 300)]) |}))
           example_executor (example_config "/email" [] []) example_world
           {| message := "Request failed"; errorCode := VNum 300; httpStatus := Some 422 |}
           422 eq_refl eq_refl).
Defined.

(** In every failure the error code is left out exactly when the status
    is: both are there after a rejected response, neither after anything
    that was caught. *)
Theorem error_code_with_status (env : platform) (this : WebFetch) (config : RequestConfig)
    (w : world) (e : PostmarkError) :
  fst (request env this config w) = Normal (Failure e) ->
  (httpStatus e = None <-> errorCode e = VUndefined).
Proof.
  rewrite request_settles. unfold settles_to.
  destruct (Headers_append (headers config) "Content-Type" "application/json")
    as [e0 | h]; [discriminate |].
  intros [= H]. revert H.
  assert (Hcaught : forall e0, failure_of e0 = Failure e ->
                               httpStatus e = None <-> errorCode e = VUndefined)
    by (intros e0 [= <-]; cbn; tauto).
  destruct (resolved_url env this config) as [e0 | u]; [apply Hcaught |].
  destruct (fetch_settles env _) as [e0 | e0 | r]; [apply Hcaught | apply Hcaught |].
  unfold outcome_of_response.
  destruct (json r) as [e0 | parsed]; [apply Hcaught |].
  destruct (validateStatus this (status r)).
  - destruct (get_property parsed "data"); [apply Hcaught | discriminate].
  - destruct (get_property parsed "ErrorCode") as [e0 | code]; [apply Hcaught |].
    intros [= <-]. cbn. destruct code; cbn; split; discriminate.
Qed.

Lemma error_code_with_status_witness :
  let env := example_platform (TimedOut {| error_name := "AbortError";
                                           error_message := "This operation was aborted" |}) in
  let config := example_config "/email" [] [] in
  let e := {| message := "This operation was aborted"; errorCode := VUndefined;
              httpStatus := None |} in
  fst (request env example_executor config example_world) = Normal (Failure e)
  /\ (httpStatus e = None <-> errorCode e = VUndefined).
Proof.
  cbv zeta. refine (conj eq_refl _).
  exact (error_code_with_status
           (example_platform (TimedOut {| error_name := "AbortError";
                                          error_message := "This operation was aborted" |}))
           example_executor (example_config "/email" [] []) example_world
           {| message := "This operation was aborted"; errorCode := VUndefined;
              httpStatus := None |} eq_refl).
Defined.

(** A response whose body is no JSON gives a failure with the parser's
    message and neither code nor status, whatever its status code. *)
Lemma request_on_unparsed_response_witness :
  let html := {| error_name := "SyntaxError";
                 error_message := "Unexpected token < in JSON at position 0" |} in
  let r := {| status := 200; json := inl html |} in
  let env := example_platform (Responded r) in
  let config := example_config "/email" [] [] in
  exists req : fetch_request,
    issued_request env example_executor config example_world = Some req
    /\ fetch_settles env req = Responded r
    /\ json r = inl html
    /\ fst (request env example_executor config example_world)
       = Normal (Failure {| message := "Unexpected token < in JSON at position 0";
                            errorCode := VUndefined; httpStatus := None |}).
Proof.
  cbv zeta. eexists.
  refine (conj eq_refl (conj eq_refl (conj eq_refl _))).
  exact (request_on_unparsed_response
           (example_platform
              (Responded {| status := 200;
                            json := inl {| error_name := "SyntaxError";
                                           error_message :=
                                             "Unexpected token < in JSON at position 0" |} |}))
           example_executor (example_config "/email" [] []) example_world _ _ _
           eq_refl eq_refl eq_refl).
Defined.

(** When the timer fires first the call settles with a failure that
    carries the message of the abort and neither code nor status; the timer
    is no longer pending and the controller of the call is aborted. *)
Theorem request_on_timeout (env : platform) (this : WebFetch) (config : RequestConfig)
    (w : world) (req : fetch_request) (e : Error) :
  issued_request env this config w = Some req ->
  fetch_settles env req = TimedOut e ->
  fst (request env this config w)
  = Normal (Failure {| message := error_message e; errorCode := VUndefined;
                       httpStatus := None |})
  /\ timers (snd (request env this config w)) !! S (next_id w) = None
  /\ next_id w ∈ aborted (snd (request env this config w)).
Proof.
  intros Hreq Hr. split; [| split].
  - now rewrite (issued_request_settles _ _ _ _ _ Hreq), Hr.
  - rewrite (issued_request_leaves _ _ _ _ _ Hreq), Hr.
    apply map_lookup_filter_None. right. intros x Hx.
    rewrite lookup_insert_eq in Hx. injection Hx as <-. cbn. tauto.
  - revert Hreq Hr. unfold issued_request, resolved_url. intros Hreq Hr. run.
    destruct (Headers_append (headers config) "Content-Type" "application/json")
      as [e0 | h]; [discriminate |]. cbn.
    destruct (URL_new env (url config) (baseURL this)) as [e0 | u]; [discriminate |].
    destruct (addSearchParams u (params config)) as [e0 | u']; [discriminate |].
    injection Hreq as <-. cbn in Hr |- *. rewrite Hr. cbn. set_solver.
Qed.

Lemma request_on_timeout_witness :
  let abort := {| error_name := "AbortError";
                  error_message := "This operation was aborted" |} in
  let env := example_platform (TimedOut abort) in
  let config := example_config "/email" [] [] in
  let outcome := request env example_executor config example_world in
  exists req : fetch_request,
    issued_request env example_executor config example_world = Some req
    /\ fetch_settles env req = TimedOut abort
    /\ fst outcome
       = Normal (Failure {| message := "This operation was aborted";
                            errorCode := VUndefined; httpStatus := None |})
    /\ timers (snd outcome) !! 1%nat = None
    /\ 0%nat ∈ aborted (snd outcome).
Proof.
  cbv zeta. eexists.
  refine (conj eq_refl (conj eq_refl _)).
  exact (request_on_timeout
           (example_platform (TimedOut {| error_name := "AbortError";
                                          error_message := "This operation was aborted" |}))
           example_executor (example_config "/email" [] []) example_world _ _
           eq_refl eq_refl).
Defined.

(** ** What is sent *)

(** A path that resolves to no address sends nothing: the call settles
    with a failure that carries the message of the error, and neither the
    network nor the client object is touched. *)
Theorem unresolved_path_sends_nothing (env : platform) (this : WebFetch)
    (config : RequestConfig) (w : world) (e : Error) :
  Headers_guard (headers config) <> GuardImmutable ->
  resolved_url env this config = inl e ->
  fst (request env this config w)
  = Normal (Failure {| message := error_message e; errorCode := VUndefined;
                       httpStatus := None |})
  /\ sent (snd (request env this config w)) = sent w
  /\ facade (snd (request env this config w)) = facade w.
Proof.
  intros Hg Hu. split.
  - rewrite request_settles. unfold settles_to.
    now rewrite (Headers_append_accepted _ _ _ Hg), Hu.
  - apply unissued_request_leaves. unfold issued_request.
    now rewrite (Headers_append_accepted _ _ _ Hg), Hu.
Qed.

Lemma unresolved_path_sends_nothing_witness :
  let env := example_platform (Responded {| status := 200; json := inr (VObj []) |}) in
  let config := example_config "http://" [] [] in
  let outcome := request env example_executor config example_world in
  Headers_guard (headers config) <> GuardImmutable
  /\ resolved_url env example_executor config = inl (TypeError "Invalid URL")
  /\ fst outcome
     = Normal (Failure {| message := "Invalid URL"; errorCode := VUndefined;
                          httpStatus := None |})
  /\ sent (snd outcome) = []
  /\ facade (snd outcome) = facade example_world.
Proof.
  cbv zeta.
  assert (Hg : GuardNone <> GuardImmutable) by discriminate.
  refine (conj Hg (conj eq_refl _)).
  exact (unresolved_path_sends_nothing
           (example_platform (Responded {| status := 200; json := inr (VObj []) |}))
           example_executor (example_config "http://" [] []) example_world
           (TypeError "Invalid URL") Hg eq_refl).
Defined.

(** A call whose address resolves is sent once, however it ends: a
    failure, a timeout or a rejected status is not tried again. *)
Theorem sent_exactly_once (env : platform) (this : WebFetch) (config : RequestConfig)
    (w : world) (req : fetch_request) :
  issued_request env this config w = Some req ->
  sent (snd (request env this config w)) = sent w ++ [req].
Proof. intros Hreq. rewrite request_sends, Hreq. reflexivity. Qed.

Lemma sent_exactly_once_witness :
  let env := example_platform (Rejected (TypeError "fetch failed")) in
  let config := example_config "/email" [] [] in
  exists req : fetch_request,
    issued_request env example_executor config example_world = Some req
    /\ sent (snd (request env example_executor config example_world)) = [] ++ [req].
Proof.
  cbv zeta. eexists. refine (conj eq_refl _).
  exact (sent_exactly_once
           (example_platform (Rejected (TypeError "fetch failed")))
           example_executor (example_config "/email" [] []) example_world _ eq_refl).
Defined.




(** Every header other than the content type reads on the issued call as
    it read on the caller's headers. *)
Lemma Headers_get_append_other (h : Headers) (name value other : string) :
  same_name name other = false ->
  Headers_get (Headers_appended h name value) other = Headers_get h other.
Proof.
  intros Hne. destruct (Headers_append_snoc h name value) as [stored [Hs Hl]].
  unfold Headers_get, Headers_values. rewrite Hl, List.filter_app, map_app.
  cbn [List.filter fst snd].
  assert (Hso : same_name stored other = false).
  { unfold same_name in *. apply String.eqb_eq in Hs. now rewrite Hs. }
  rewrite Hso. cbn. now rewrite app_nil_r.
Qed.

Theorem other_headers_kept (env : platform) (this : WebFetch) (config : RequestConfig)
    (w : world) (req : fetch_request) (name : string) :
  issued_request env this config w = Some req ->
  same_name "Content-Type" name = false ->
  Headers_get (fetch_headers req) name = Headers_get (headers config) name.
Proof.
  unfold issued_request, Headers_append. intros Hreq Hne.
  destruct (resolved_url env this config) as [e | u];
    [destruct (Headers_guard (headers config)); discriminate |].
  destruct (Headers_guard (headers config)); try discriminate;
    injection Hreq as <-; cbn; now apply Headers_get_append_other.
Qed.

Lemma other_headers_kept_witness :
  let env := example_platform (Rejected (TypeError "fetch failed")) in
  let supplied := [("Accept", "application/json"); ("X-Postmark-Server-Token", "t");
                   ("accept", "text/plain")] in
  let config := example_config "/email" [] supplied in
  exists req : fetch_request,
    issued_request env example_executor config example_world = Some req
    /\ same_name "Content-Type" "ACCEPT" = false
    /\ Headers_get (headers config) "ACCEPT" = Some "application/json, text/plain"
    /\ Headers_get (fetch_headers req) "ACCEPT" = Headers_get (headers config) "ACCEPT".
Proof.
  cbv zeta. eexists. refine (conj eq_refl (conj eq_refl (conj eq_refl _))).
  exact (other_headers_kept
           (example_platform (Rejected (TypeError "fetch failed")))
           example_executor
           (example_config "/email" []
              [("Accept", "application/json"); ("X-Postmark-Server-Token", "t");
               ("accept", "text/plain")])
           example_world _ "ACCEPT" eq_refl eq_refl).
Defined.

(** ** The client facade *)

(** On a client that was set up, and with headers that are not immutable,
    [httpRequest] resolves or throws a [PostmarkError]; no error of the
    platform reaches its caller as it is. *)
Theorem httpRequest_throws_only_PostmarkError (env : platform)
    (method : ClientOptions.HttpMethod) (path : string) (query : list (string * value))
    (body : option value) (requestHeaders : Headers) (w : world) (this : WebFetch) :
  client (facade w) = Some this ->
  Headers_guard requestHeaders <> GuardImmutable ->
  (exists d : value, fst (httpRequest env method path query body requestHeaders w) = Normal d)
  \/ (exists e : PostmarkError,
        fst (httpRequest env method path query body requestHeaders w) = Throw (ApiError e)).
Proof.
  intros Hc Hg. rewrite (httpRequest_unwraps _ _ _ _ _ _ _ _ Hc).
  assert (Hres : exists res : Result value PostmarkError,
             fst (request env this
                    {| url := path; method := method; data := body;
                       headers := requestHeaders; params := query |} w) = Normal res).
  { rewrite request_settles. unfold settles_to. cbn [headers].
    rewrite (Headers_append_accepted _ _ _ Hg). eauto. }
  destruct Hres as [res ->]. destruct res; eauto.
Qed.

Lemma httpRequest_throws_only_PostmarkError_witness :
  let env := example_platform (Rejected (TypeError "fetch failed")) in
  let call := httpRequest env ClientOptions.DELETE "/bounces/1" [] None (Headers_new [])
                example_ready in
  client (facade example_ready) = Some example_executor
  /\ Headers_guard (Headers_new []) <> GuardImmutable
  /\ ((exists d : value, fst call = Normal d)
      \/ (exists e : PostmarkError, fst call = Throw (ApiError e))).
Proof.
  cbv zeta.
  assert (Hg : GuardNone <> GuardImmutable) by discriminate.
  refine (conj eq_refl (conj Hg _)).
  exact (httpRequest_throws_only_PostmarkError
           (example_platform (Rejected (TypeError "fetch failed")))
           ClientOptions.DELETE "/bounces/1" [] None (Headers_new []) example_ready
           example_executor eq_refl Hg).
Defined.

Lemma property_absent (parsed : value) (k : string) :
  has_own parsed k = false -> property parsed k = VUndefined.
Proof.
  destruct parsed as [| | | | | | props]; try reflexivity. cbn.
  induction props as [| [k' v] props IH]; [reflexivity |].
  cbn. destruct (String.eqb k' k); [discriminate | exact IH].
Qed.

(** An accepted response whose body has no [data] property of its own (an
    object without the key, an array, a string, a number, a boolean) makes
    [httpRequest] resolve with [undefined]; nothing else of the body reaches
    the caller. *)
Theorem httpRequest_without_data (env : platform) (method : ClientOptions.HttpMethod)
    (path : string) (query : list (string * value)) (body : option value)
    (requestHeaders : Headers) (w : world) (this : WebFetch) (req : fetch_request)
    (r : Response) (parsed : value) :
  client (facade w) = Some this ->
  issued_request env this
    {| url := path; method := method; data := body;
       headers := requestHeaders; params := query |} w = Some req ->
  fetch_settles env req = Responded r ->
  validateStatus this (status r) = true ->
  json r = inr parsed ->
  nullish parsed = false ->
  has_own parsed "data" = false ->
  fst (httpRequest env method path query body requestHeaders w) = Normal VUndefined.
Proof.
  intros Hc Hreq Hr Hv Hj Hn Hown.
  rewrite (httpRequest_unwraps _ _ _ _ _ _ _ _ Hc).
  rewrite (request_on_parsed_response _ _ _ _ _ _ _ Hreq Hr Hj Hn), Hv.
  now rewrite (property_absent _ _ Hown).
Qed.

Lemma httpRequest_without_data_witness :
  let parsed := VObj [("To", VStr "a@example.com"); ("MessageID", VStr "b7bc2f4a");
                      ("ErrorCode", VNum 0); ("Message", VStr "OK")] in
  let r := {| status := 200; json := inr parsed |} in
  let env := example_platform (Responded r) in
  let config := {| url := "/email"; method := ClientOptions.POST; data := None;
                   headers := Headers_new []; params := [] |} in
  exists req : fetch_request,
    client (facade example_ready) = Some example_executor
    /\ issued_request env example_executor config example_ready = Some req
    /\ fetch_settles env req = Responded r
    /\ validateStatus example_executor (status r) = true
    /\ json r = inr parsed
    /\ nullish parsed = false
    /\ has_own parsed "data" = false
    /\ fst (httpRequest env ClientOptions.POST "/email" [] None (Headers_new [])
              example_ready)
       = Normal VUndefined.
Proof.
  cbv zeta. eexists.
  refine (conj eq_refl (conj eq_refl (conj eq_refl (conj eq_refl (conj eq_refl
            (conj eq_refl (conj eq_refl _))))))).
  exact (httpRequest_without_data
           (example_platform
              (Responded
                 {| status := 200;
                    json := inr (VObj [("To", VStr "a@example.com");
                                       ("MessageID", VStr "b7bc2f4a");
                                       ("ErrorCode", VNum 0); ("Message", VStr "OK")]) |}))
           ClientOptions.POST "/email" [] None (Headers_new []) example_ready
           example_executor _ _ _
           eq_refl eq_refl eq_refl eq_refl eq_refl eq_refl eq_refl).
Defined.

(** ** Options *)

(** [initHttpClient] starts from the default options each time: options
    given to an earlier call are not kept, and the client is left as if the
    later call had been the only one. *)
Theorem last_initHttpClient_wins (models : HttpClient)
    (earlier later : option ClientOptions.Configuration) (w : world) :
  snd (initHttpClient models later (snd (initHttpClient models earlier w)))
  = snd (initHttpClient models later w).
Proof. reflexivity. Qed.

(** A caller whose options hold a timeout that is a truthy number gets
    that many seconds, whatever the default options hold. *)
Theorem caller_timeout_overrides_default (models : HttpClient)
    (caller : ClientOptions.Configuration) (w : world) (t : float) :
  ClientOptions.timeout caller = ClientOptions.Present (Some t) ->
  truthy t = true ->
  timeout <$> client (facade (snd (initHttpClient models (Some caller) w)))
  = Some (t * 1000)%float.
Proof.
  intros Ht Htruthy.
  change (Some (getRequestTimeoutInMilliseconds
                  {| clientOptions := ClientOptions.spread (DefaultOptions models) (Some caller);
                     client := client (facade w) |})
          = Some (t * 1000)%float).
  unfold getRequestTimeoutInMilliseconds.
  cbn [clientOptions ClientOptions.spread ClientOptions.timeout]. rewrite Ht.
  cbn [ClientOptions.spread_property ClientOptions.read]. now rewrite Htruthy.
Qed.

Lemma caller_timeout_overrides_default_witness :
  let caller := {| ClientOptions.baseURL := ClientOptions.Absent;
                   ClientOptions.timeout := ClientOptions.Present (Some 0.5%float);
                   ClientOptions.validateStatus := ClientOptions.Absent |} in
  ClientOptions.timeout caller = ClientOptions.Present (Some 0.5%float)
  /\ truthy 0.5%float = true
  /\ timeout <$> client (facade (snd (initHttpClient example_models (Some caller)
                                        example_world)))
     = Some 500%float.
Proof.
  cbv zeta. refine (conj eq_refl (conj eq_refl _)).
  exact (caller_timeout_overrides_default example_models
           {| ClientOptions.baseURL := ClientOptions.Absent;
              ClientOptions.timeout := ClientOptions.Present (Some 0.5%float);
              ClientOptions.validateStatus := ClientOptions.Absent |}
           example_world 0.5%float eq_refl eq_refl).
Defined.

(** A caller who passes no options, or options that have no timeout, gets
    the delay that the default options give; a caller whose options have a
    timeout that holds [undefined] gets 60 seconds, whatever the default
    options hold. *)
Theorem default_timeout_when_omitted (models : HttpClient)
    (configOptions : option ClientOptions.Configuration) (w : world) :
  ((forall caller : ClientOptions.Configuration,
       configOptions = Some caller ->
       ClientOptions.timeout caller = ClientOptions.Absent) ->
   timeout <$> client (facade (snd (initHttpClient models configOptions w)))
   = Some (getRequestTimeoutInMilliseconds
             {| clientOptions := DefaultOptions models; client := None |}))
  /\ (forall caller : ClientOptions.Configuration,
         configOptions = Some caller ->
         ClientOptions.timeout caller = ClientOptions.Present None ->
         timeout <$> client (facade (snd (initHttpClient models configOptions w)))
         = Some 60000%float).
Proof.
  split.
  - intros Habsent.
    change (Some (getRequestTimeoutInMilliseconds
                    {| clientOptions := ClientOptions.spread (DefaultOptions models) configOptions;
                       client := client (facade w) |})
            = Some (getRequestTimeoutInMilliseconds
                      {| clientOptions := DefaultOptions models; client := None |})).
    unfold getRequestTimeoutInMilliseconds.
    destruct configOptions as [caller |]; [| reflexivity].
    cbn [clientOptions ClientOptions.spread ClientOptions.timeout].
    now rewrite (Habsent caller eq_refl).
  - intros caller -> Hundefined.
    change (Some (getRequestTimeoutInMilliseconds
                    {| clientOptions := ClientOptions.spread (DefaultOptions models) (Some caller);
                       client := client (facade w) |})
            = Some 60000%float).
    unfold getRequestTimeoutInMilliseconds.
    cbn [clientOptions ClientOptions.spread ClientOptions.timeout].
    now rewrite Hundefined.
Qed.

Lemma default_timeout_when_omitted_witness :
  let models :=
    {| DefaultOptions :=
         {| ClientOptions.baseURL := ClientOptions.Present (Some "https://api.postmarkapp.com");
            ClientOptions.timeout := ClientOptions.Present (Some 180%float);
            ClientOptions.validateStatus := ClientOptions.Absent |};
       getBaseHttpRequestURL := getBaseHttpRequestURL example_models |} in
  let silent := {| ClientOptions.baseURL := ClientOptions.Present (Some "https://eu.example.test");
                   ClientOptions.timeout := ClientOptions.Absent;
                   ClientOptions.validateStatus := ClientOptions.Absent |} in
  let undefined := {| ClientOptions.baseURL := ClientOptions.Absent;
                      ClientOptions.timeout := ClientOptions.Present None;
                      ClientOptions.validateStatus := ClientOptions.Absent |} in
  (forall caller : ClientOptions.Configuration,
      Some silent = Some caller -> ClientOptions.timeout caller = ClientOptions.Absent)
  /\ timeout <$> client (facade (snd (initHttpClient models (Some silent) example_world)))
     = Some 180000%float
  /\ ClientOptions.timeout undefined = ClientOptions.Present None
  /\ timeout <$> client (facade (snd (initHttpClient models (Some undefined) example_world)))
     = Some 60000%float.
Proof.
  cbv zeta.
  assert (Habsent : forall caller : ClientOptions.Configuration,
             Some {| ClientOptions.baseURL :=
                       ClientOptions.Present (Some "https://eu.example.test");
                     ClientOptions.timeout := ClientOptions.Absent;
                     ClientOptions.validateStatus := ClientOptions.Absent |} = Some caller ->
             ClientOptions.timeout caller = ClientOptions.Absent)
    by (intros caller [= <-]; reflexivity).
  refine (conj Habsent (conj _ (conj eq_refl _))).
  - exact (proj1 (default_timeout_when_omitted _ _ example_world) Habsent).
  - exact (proj2 (default_timeout_when_omitted
                    {| DefaultOptions :=
                         {| ClientOptions.baseURL :=
                              ClientOptions.Present (Some "https://api.postmarkapp.com");
                            ClientOptions.timeout := ClientOptions.Present (Some 180%float);
                            ClientOptions.validateStatus := ClientOptions.Absent |};
                       getBaseHttpRequestURL := getBaseHttpRequestURL example_models |}
                    (Some {| ClientOptions.baseURL := ClientOptions.Absent;
                             ClientOptions.timeout := ClientOptions.Present None;
                             ClientOptions.validateStatus := ClientOptions.Absent |})
                    example_world)
                 {| ClientOptions.baseURL := ClientOptions.Absent;
                    ClientOptions.timeout := ClientOptions.Present None;
                    ClientOptions.validateStatus := ClientOptions.Absent |}
                 eq_refl eq_refl).
Defined.

(** ** Timers after a response *)

(** Once a response has arrived, whatever its status and its body, the
    call leaves its timer cleared and aborts nothing. *)
Theorem response_disarms_timer (env : platform) (this : WebFetch) (config : RequestConfig)
    (w : world) (req : fetch_request) (r : Response) :
  issued_request env this config w = Some req ->
  fetch_settles env req = Responded r ->
  timers (snd (request env this config w)) !! S (next_id w) = None
  /\ aborted (snd (request env this config w)) = aborted w.
Proof.
  intros Hreq Hr. split; [exact (timer_cleared_on_response _ _ _ _ _ _ Hreq Hr) |].
  revert Hreq Hr. unfold issued_request, resolved_url. intros Hreq Hr. run.
  destruct (Headers_append (headers config) "Content-Type" "application/json")
    as [e | h]; [discriminate |]. cbn.
  destruct (URL_new env (url config) (baseURL this)) as [e | u]; [discriminate |].
  destruct (addSearchParams u (params config)) as [e | u']; [discriminate |].
  injection Hreq as <-. cbn in Hr |- *. rewrite Hr. cbn.
  destruct (json r) as [e | parsed]; cbn; [reflexivity |].
  destruct (validateStatus this (status r)); cbn;
    destruct (get_property parsed _); reflexivity.
Qed.

Lemma response_disarms_timer_witness :
  let html := {| error_name := "SyntaxError";
                 error_message := "Unexpected token < in JSON at position 0" |} in
  let r := {| status := 502; json := inl html |} in
  let env := example_platform (Responded r) in
  let config := example_config "/email" [] [] in
  let outcome := request env example_executor config example_world in
  exists req : fetch_request,
    issued_request env example_executor config example_world = Some req
    /\ fetch_settles env req = Responded r
    /\ timers (snd outcome) !! 1%nat = None
    /\ aborted (snd outcome) = ∅.
Proof.
  cbv zeta. eexists. refine (conj eq_refl (conj eq_refl _)).
  exact (response_disarms_timer
           (example_platform
              (Responded {| status := 502;
                            json := inl {| error_name := "SyntaxError";
                                           error_message :=
                                             "Unexpected token < in JSON at position 0" |} |}))
           example_executor (example_config "/email" [] []) example_world _ _
           eq_refl eq_refl).
Defined.
